(** * Target encoder of rt-tutorials-hpt

    A shallow embedding of [src/preprocessing/target_encoder.py]: the class
    [CustomTargetEncoder] (its constructor, [fit] and [transform]) and the
    module-level helpers built on it ([get_target_encoder],
    [train_target_encoder], [transform_targets], [save_target_encoder],
    [load_target_encoder]).

    The development has two layers.
    - The value layer gives the meaning of the constructor and of
      [transform] as functions of the attribute values they read.
    - The object layer places encoders and dataframes in a store of
      references, with a disk next to it, and runs the module-level
      functions in a state-and-exception monad; object identity, mutation
      and persistence are stated there. *)

From stdpp Require Import gmap strings list fin_maps pretty.

Open Scope string_scope.
#[local] Set Warnings "-clear-no-such-hyp,-register-all".

(** ** Python values and [str] *)

(** The cell values a target column may hold. *)
Inductive pyval :=
  | PStr (s : string)
  | PInt (z : Z)
  | PBool (b : bool)
  | PNone.

(** Python's [str(v)]. *)
Definition str (v : pyval) : string :=
  match v with
  | PStr s => s
  | PInt z => pretty z
  | PBool true => "True"
  | PBool false => "False"
  | PNone => "None"
  end.

(** A pandas DataFrame, as far as the encoder looks at it: named columns of
    cells.  Column names are unique, so [data.columns] is the domain of the
    map and [data[name]] is a lookup. *)
Abbreviation DataFrame := (gmap string (list pyval)).

(** [data.columns]. *)
Definition columns (data : DataFrame) : gset string := dom data.

(** [series.astype(str)]: every cell through [str]. *)
Definition astype_str (column : list pyval) : list string := str <$> column.

(** [series.apply(str)] on a series that already holds Python strings. *)
Definition apply_str (targets : list string) : list string :=
  (fun s => str (PStr s)) <$> targets.

(** [series.map(d)] for a dict [d]: a key that is missing gives the missing
    value NaN, written [None] here. *)
Definition series_map (d : gmap string Z) (targets : list string) : list (option Z) :=
  (fun s => d !! s) <$> targets.

(** ** Exceptions and results *)

(** The two messages [transform] raises a [ValueError] with, each with the
    values the message is formatted from. *)
Inductive value_error :=
  | WrongClassCount (classes : list string) (found : nat) (observed : gset string)
  | ClassMismatch (observed : gset string) (classes : list string).

Inductive exn :=
  | ValueError (e : value_error)
  | IndexError
  | AttributeError
  | FileNotFoundError
  | UnpicklingError.

Inductive outcome (A : Type) :=
  | Ok (a : A)
  | Raise (e : exn).
Arguments Ok {A} a.
Arguments Raise {A} e.

(** ** The encoder: value layer *)

(** The attributes of a [CustomTargetEncoder] instance. *)
Record CustomTargetEncoder := mkCustomTargetEncoder {
  target_field : string;
  classes_ : list string;
  class_encoding : gmap string Z
}.

(** [CustomTargetEncoder.__init__]: [classes_] is every allowed value through
    [str]; the dict literal [{classes_[0]:0, classes_[1]:1}] indexes the list
    at 0 and 1 (an [IndexError] when it is shorter) and, as a dict literal
    does, lets the later key win when both keys are equal. *)
Definition __init__ (target_field : string) (allowed_values : list pyval)
  : outcome CustomTargetEncoder :=
  let classes_ := str <$> allowed_values in
  match classes_ !! 0%nat with
  | None => Raise IndexError
  | Some c0 =>
      match classes_ !! 1%nat with
      | None => Raise IndexError
      | Some c1 =>
          Ok {| target_field := target_field;
                classes_ := classes_;
                class_encoding := <[c1 := 1%Z]> (<[c0 := 0%Z]> ∅) |}
      end
  end.

(** [CustomTargetEncoder.transform], as a function of the encoder's
    attributes and of the dataframe.  [Ok None] is the method's [None].  The
    test [self.target_field in data.columns] and the access
    [data[self.target_field]] are one lookup (see [elem_of_columns]). *)
Definition transform (self : CustomTargetEncoder) (data : DataFrame)
  : outcome (option (list (option Z))) :=
  match data !! target_field self with
  | Some column =>
      let targets := astype_str column in
      let observed_classes : gset string := list_to_set targets in
      if decide (size observed_classes ≠ 2) then
        Raise (ValueError
                 (WrongClassCount (classes_ self) (size observed_classes) observed_classes))
      else if decide (size (observed_classes ∩ list_to_set (classes_ self)) ≠ 2) then
        Raise (ValueError (ClassMismatch observed_classes (classes_ self)))
      else
        Ok (Some (series_map (class_encoding self) (apply_str targets)))
  | None => Ok None
  end.

(** ** The object layer: references, store and disk *)

Definition loc := nat.

(** What a reference may point to. *)
Inductive obj :=
  | OEncoder (enc : CustomTargetEncoder)
  | OFrame (data : DataFrame).

(** The schema object [get_target_encoder] reads its configuration from. *)
Record BinaryClassificationSchema := mkSchema {
  target : string;
  allowed_target_values : list pyval
}.

Section ObjectLayer.

(** The bytes of a file written by [joblib.dump].  The functions of this
    layer take joblib's encoding of an object and its decoder as parameters;
    the model of the two is [joblib_pickle] and [joblib_unpickle] below. *)
Context {blob : Type}.
Variable joblib_pickle : obj -> blob.
Variable joblib_unpickle : blob -> option obj.

(** The file system as the two persistence functions meet it.  Files have
    canonical names, the keys of [disk]; a path is one of possibly many
    spellings of a file.  [open_wb path] is the file that opening [path] for
    writing reaches, or the exception the open raises (a directory that is
    missing, a permission that is denied); [open_rb path] is the same for
    reading. *)
Variable open_wb : string -> outcome string.
Variable open_rb : string -> outcome string.

Record world := mkWorld {
  heap : gmap loc obj;
  disk : gmap string blob
}.

(** Computations that read and write the world and may raise. *)
Definition PyM (A : Type) : Type := world -> outcome A * world.

Definition ret {A} (a : A) : PyM A := fun w => (Ok a, w).

Definition raise {A} (e : exn) : PyM A := fun w => (Raise e, w).

Definition bind {A B} (m : PyM A) (k : A -> PyM B) : PyM B :=
  fun w =>
    match m w with
    | (Ok a, w') => k a w'
    | (Raise e, w') => (Raise e, w')
    end.

(** A value-layer result brought into the monad: no access to the world. *)
Definition lift {A} (r : outcome A) : PyM A := fun w => (r, w).

Definition deref (l : loc) : PyM obj :=
  fun w =>
    match heap w !! l with
    | Some o => (Ok o, w)
    | None => (Raise AttributeError, w)
    end.

(** Attribute access on an object that must be an encoder, respectively a
    dataframe; any other object lacks the attribute. *)
Definition get_encoder (l : loc) : PyM CustomTargetEncoder :=
  bind (deref l) (fun o =>
    match o with
    | OEncoder enc => ret enc
    | _ => raise AttributeError
    end).

Definition get_frame (l : loc) : PyM DataFrame :=
  bind (deref l) (fun o =>
    match o with
    | OFrame data => ret data
    | _ => raise AttributeError
    end).

(** A new object, at a reference no object has yet. *)
Definition alloc (o : obj) : PyM loc :=
  fun w =>
    let l := fresh (dom (heap w)) in
    (Ok l, {| heap := <[l := o]> (heap w); disk := disk w |}).

(** Writing replaces the contents of the file the path reaches; nothing is
    written when the path cannot be opened. *)
Definition write_file (path : string) (b : blob) : PyM unit :=
  fun w =>
    match open_wb path with
    | Ok file => (Ok tt, {| heap := heap w; disk := <[file := b]> (disk w) |})
    | Raise e => (Raise e, w)
    end.

(** Reading fails when the path cannot be opened, and with
    [FileNotFoundError] when it reaches a name under which there is no
    file. *)
Definition read_file (path : string) : PyM blob :=
  fun w =>
    match open_rb path with
    | Ok file =>
        match disk w !! file with
        | Some b => (Ok b, w)
        | None => (Raise FileNotFoundError, w)
        end
    | Raise e => (Raise e, w)
    end.

(** [CustomTargetEncoder.fit]: [return self]. *)
Definition fit (self data : loc) : PyM loc := ret self.

(** The call [target_encoder.transform(data)]. *)
Definition transform_method (self data : loc) : PyM (option (list (option Z))) :=
  bind (get_encoder self) (fun enc =>
  bind (get_frame data) (fun df =>
  lift (transform enc df))).

(** [get_target_encoder]. *)
Definition get_target_encoder (data_schema : BinaryClassificationSchema) : PyM loc :=
  bind (lift (__init__ (target data_schema) (allowed_target_values data_schema)))
       (fun enc => alloc (OEncoder enc)).

(** [train_target_encoder]: the method [fit] is looked up on the encoder,
    called, its result dropped, and the argument returned. *)
Definition train_target_encoder (target_encoder train_data : loc) : PyM loc :=
  bind (get_encoder target_encoder) (fun _ =>
  bind (fit target_encoder train_data) (fun _ =>
  ret target_encoder)).

(** [transform_targets]. *)
Definition transform_targets (target_encoder data : loc)
  : PyM (option (list (option Z))) :=
  bind (transform_method target_encoder data) (fun transformed_targets =>
  ret transformed_targets).

(** [save_target_encoder]: [joblib.dump(target_encoder, file_path_and_name)]. *)
Definition save_target_encoder (target_encoder : loc) (file_path_and_name : string)
  : PyM unit :=
  bind (deref target_encoder) (fun o =>
  write_file file_path_and_name (joblib_pickle o)).

(** [load_target_encoder]: [joblib.load(file_path_and_name)], which builds
    a new object from the bytes of the file. *)
Definition load_target_encoder (file_path_and_name : string) : PyM loc :=
  bind (read_file file_path_and_name) (fun b =>
    match joblib_unpickle b with
    | Some o => alloc o
    | None => raise UnpicklingError
    end).

End ObjectLayer.

Arguments world : clear implicits.
Arguments PyM : clear implicits.

(** ** Pickles

    Modelled from the spec: [joblib.dump] and [joblib.load] are not code of
    the repository.  The spec asks for "a generic dump object graph to file /
    load object graph from file pair of operations, implemented via any
    general serialization mechanism", whose artifact is "a single opaque
    serialized blob containing the encoder's full state", the format being
    "an implementation detail".  The mechanism taken here is the one of
    Python's pickle: the blob is a program for a stack machine, and loading
    runs the program and rebuilds the object from what it leaves on the
    stack.  A blob the machine cannot run, or that leaves no known object,
    is corrupt. *)

(** The instructions of the machine that the two kinds of object need. *)
Inductive opcode :=
  | BINUNICODE (s : string)
  | BININT (z : Z)
  | NEWTRUE
  | NEWFALSE
  | NONE
  | EMPTY_LIST
  | EMPTY_DICT
  | EMPTY_TUPLE
  | MARK
  | APPENDS
  | SETITEMS
  | GLOBAL (name : string)
  | NEWOBJ
  | BUILD
  | STOP.

(** What the machine has on its stack. *)
Inductive pvalue :=
  | VCell (v : pyval)
  | VList (items : list pvalue)
  | VDict (entries : list (pvalue * pvalue))
  | VTuple0
  | VMark
  | VGlobal (name : string)
  | VInstance (cls : string) (attrs : list (pvalue * pvalue)).

(** The pickler: the program that rebuilds a value. *)
Definition emit_cell (v : pyval) : list opcode :=
  match v with
  | PStr s => [BINUNICODE s]
  | PInt z => [BININT z]
  | PBool true => [NEWTRUE]
  | PBool false => [NEWFALSE]
  | PNone => [NONE]
  end.

Definition emit_str (s : string) : list opcode := [BINUNICODE s].
Definition emit_int (z : Z) : list opcode := [BININT z].

Definition emit_list {A} (emit : A -> list opcode) (l : list A) : list opcode :=
  (EMPTY_LIST :: MARK :: (l ≫= emit) ++ [APPENDS])%list.

Definition emit_dict {A} (emit : A -> list opcode) (d : gmap string A) : list opcode :=
  (EMPTY_DICT :: MARK
     :: (map_to_list d ≫= fun kv => BINUNICODE kv.1 :: emit kv.2) ++ [SETITEMS])%list.

(** Modelled from the spec: the blob [joblib.dump] writes for an object.
    An instance is created from its class and given its attributes as its
    state: the three attributes of an encoder, the columns of a dataframe. *)
Definition joblib_pickle (o : obj) : list opcode :=
  match o with
  | OEncoder enc =>
      ([GLOBAL "CustomTargetEncoder"; EMPTY_TUPLE; NEWOBJ; EMPTY_DICT; MARK]
       ++ BINUNICODE "target_field" :: emit_str (target_field enc)
       ++ BINUNICODE "classes_" :: emit_list emit_str (classes_ enc)
       ++ BINUNICODE "class_encoding" :: emit_dict emit_int (class_encoding enc)
       ++ [SETITEMS; BUILD; STOP])%list
  | OFrame data =>
      ([GLOBAL "DataFrame"; EMPTY_TUPLE; NEWOBJ]
       ++ emit_dict (emit_list emit_cell) data
       ++ [BUILD; STOP])%list
  end.

(** The unpickler: the stack machine. *)
Definition is_mark (v : pvalue) : bool :=
  match v with VMark => true | _ => false end.

(** The items above the topmost mark, in the order they were pushed, and
    the stack below the mark. *)
Fixpoint pop_mark (stack : list pvalue) : option (list pvalue * list pvalue) :=
  match stack with
  | [] => None
  | v :: stack' =>
      if is_mark v then Some ([], stack')
      else match pop_mark stack' with
           | Some (items, rest) => Some ((items ++ [v])%list, rest)
           | None => None
           end
  end.

(** Keys and values pushed in turn, as entries. *)
Fixpoint pairs (items : list pvalue) : option (list (pvalue * pvalue)) :=
  match items with
  | [] => Some []
  | k :: v :: items' =>
      match pairs items' with
      | Some ps => Some ((k, v) :: ps)
      | None => None
      end
  | _ => None
  end.

Definition step (op : opcode) (stack : list pvalue) : option (list pvalue) :=
  match op with
  | BINUNICODE s => Some (VCell (PStr s) :: stack)
  | BININT z => Some (VCell (PInt z) :: stack)
  | NEWTRUE => Some (VCell (PBool true) :: stack)
  | NEWFALSE => Some (VCell (PBool false) :: stack)
  | NONE => Some (VCell PNone :: stack)
  | EMPTY_LIST => Some (VList [] :: stack)
  | EMPTY_DICT => Some (VDict [] :: stack)
  | EMPTY_TUPLE => Some (VTuple0 :: stack)
  | MARK => Some (VMark :: stack)
  | GLOBAL name => Some (VGlobal name :: stack)
  | APPENDS =>
      match pop_mark stack with
      | Some (items, VList l :: stack') => Some (VList (l ++ items)%list :: stack')
      | _ => None
      end
  | SETITEMS =>
      match pop_mark stack with
      | Some (items, VDict d :: stack') =>
          match pairs items with
          | Some ps => Some (VDict (d ++ ps)%list :: stack')
          | None => None
          end
      | _ => None
      end
  | NEWOBJ =>
      match stack with
      | VTuple0 :: VGlobal name :: stack' => Some (VInstance name [] :: stack')
      | _ => None
      end
  | BUILD =>
      match stack with
      | VDict d :: VInstance name attrs :: stack' =>
          Some (VInstance name (attrs ++ d)%list :: stack')
      | _ => None
      end
  | STOP => None
  end.

(** A program is run to its [STOP], which must find one value on the
    stack. *)
Fixpoint run (ops : list opcode) (stack : list pvalue) : option pvalue :=
  match ops with
  | [] => None
  | STOP :: _ => match stack with [v] => Some v | _ => None end
  | op :: ops' =>
      match step op stack with
      | Some stack' => run ops' stack'
      | None => None
      end
  end.

(** Reading typed values back from the machine's values. *)
Definition decode_cell (v : pvalue) : option pyval :=
  match v with VCell c => Some c | _ => None end.

Definition decode_str (v : pvalue) : option string :=
  match v with VCell (PStr s) => Some s | _ => None end.

Definition decode_int (v : pvalue) : option Z :=
  match v with VCell (PInt z) => Some z | _ => None end.

Definition decode_list {A} (decode : pvalue -> option A) (v : pvalue) : option (list A) :=
  match v with VList items => mapM decode items | _ => None end.

Definition decode_entry {A} (decode : pvalue -> option A) (kv : pvalue * pvalue)
  : option (string * A) :=
  match decode_str kv.1, decode kv.2 with
  | Some k, Some x => Some (k, x)
  | _, _ => None
  end.

(** Entries are set in order, so that a later one of the same key wins. *)
Definition decode_entries {A} (decode : pvalue -> option A)
    (entries : list (pvalue * pvalue)) : option (gmap string A) :=
  match mapM (decode_entry decode) entries with
  | Some kvs => Some (list_to_map (reverse kvs))
  | None => None
  end.

Definition decode_dict {A} (decode : pvalue -> option A) (v : pvalue)
  : option (gmap string A) :=
  match v with VDict entries => decode_entries decode entries | _ => None end.

(** The attribute of a state under a name, the last one set. *)
Fixpoint get_attr (name : string) (attrs : list (pvalue * pvalue)) : option pvalue :=
  match attrs with
  | [] => None
  | (k, v) :: attrs' =>
      match get_attr name attrs' with
      | Some v' => Some v'
      | None =>
          match decode_str k with
          | Some s => if String.eqb s name then Some v else None
          | None => None
          end
      end
  end.

Definition decode_obj (v : pvalue) : option obj :=
  match v with
  | VInstance cls attrs =>
      if String.eqb cls "CustomTargetEncoder" then
        match get_attr "target_field" attrs ≫= decode_str,
              get_attr "classes_" attrs ≫= decode_list decode_str,
              get_attr "class_encoding" attrs ≫= decode_dict decode_int with
        | Some tf, Some cs, Some ce =>
            Some (OEncoder {| target_field := tf; classes_ := cs; class_encoding := ce |})
        | _, _, _ => None
        end
      else if String.eqb cls "DataFrame" then
        OFrame <$> decode_entries (decode_list decode_cell) attrs
      else None
  | _ => None
  end.

(** Modelled from the spec: the object [joblib.load] rebuilds from a blob,
    or nothing when the blob is corrupt. *)
Definition joblib_unpickle (b : list opcode) : option obj :=
  run b [] ≫= decode_obj.

(** The entry the machine holds for a key and a value. *)
Definition embed_entry {A} (embed : A -> pvalue) (kv : string * A) : pvalue * pvalue :=
  (VCell (PStr kv.1), embed kv.2).


(** The number of distinct strings in a column after [astype(str)], counted
    on the list, without the set [transform] builds. *)
Definition distinct_count (column : list pyval) : nat :=
  length (remove_dups (astype_str column)).

(** * Properties *)

(** ** Sets of observed classes *)

Lemma elem_of_columns (data : DataFrame) (name : string) :
  name ∈ columns data <-> is_Some (data !! name).
Proof. unfold columns. apply elem_of_dom. Qed.

Lemma size_observed (column : list pyval) :
  size (list_to_set (astype_str column) : gset string) = distinct_count column.
Proof.
  unfold distinct_count.
  rewrite <- (size_list_to_set (C := gset string) (remove_dups (astype_str column))).
  - f_equal. apply set_eq. intros x.
    rewrite !elem_of_list_to_set. symmetry. apply elem_of_remove_dups.
  - apply NoDup_remove_dups.
Qed.

Lemma size_pair (x y : string) : x ≠ y -> size ({[x; y]} : gset string) = 2.
Proof.
  intros Hne. rewrite size_union by set_solver. by rewrite !size_singleton.
Qed.

Lemma size_pair_same (x : string) : size ({[x; x]} : gset string) = 1.
Proof.
  replace ({[x; x]} : gset string) with ({[x]} : gset string) by set_solver.
  apply size_singleton.
Qed.

Lemma list_to_set_pair (x y : string) :
  (list_to_set [x; y] : gset string) = {[x; y]}.
Proof. set_solver. Qed.

(** A set of two elements that meets a pair in two elements is that pair. *)
Lemma inter_pair_full (X : gset string) (x y : string) :
  size X = 2 -> size (X ∩ {[x; y]}) = 2 -> X = {[x; y]}.
Proof.
  intros HX HI.
  assert (X ∩ {[x; y]} = X) as HXI.
  { apply set_subseteq_size_eq; [set_solver | lia]. }
  assert (x ≠ y) as Hne.
  { intros ->. assert (size (X ∩ {[y; y]}) <= 1)%nat; [| lia].
    rewrite <- (size_pair_same y). apply subseteq_size. set_solver. }
  apply set_subseteq_size_eq; [set_solver | rewrite size_pair by done; lia].
Qed.

(** The set [transform] builds from a column whose cells stringify to [x]
    or to [y], each at least once. *)
Lemma observed_pair (column : list pyval) (x y : string) :
  (forall v, v ∈ column -> str v = x \/ str v = y) ->
  (exists v, v ∈ column /\ str v = x) ->
  (exists v, v ∈ column /\ str v = y) ->
  (list_to_set (astype_str column) : gset string) = {[x; y]}.
Proof.
  intros Hall [vx [Hvx Hx]] [vy [Hvy Hy]].
  apply set_eq. intros s. unfold astype_str.
  rewrite elem_of_list_to_set, list_elem_of_fmap, elem_of_union, !elem_of_singleton.
  split.
  - intros [v [-> Hv]]. by apply Hall.
  - intros [-> | ->]; [exists vx | exists vy]; done.
Qed.

(** What the constructor builds from exactly two allowed values. *)
Lemma init_two (tf : string) (a b : pyval) :
  __init__ tf [a; b]
  = Ok {| target_field := tf;
          classes_ := [str a; str b];
          class_encoding := <[str b := 1%Z]> (<[str a := 0%Z]> ∅) |}.
Proof. reflexivity. Qed.

(** ** The encoding of a well-formed column *)

(** C1: an encoder built from two labels whose strings differ, given a
    dataframe whose target column is present and holds only cells that
    stringify to the first or to the second label, each at least once,
    returns one code per row in row order: 0 for the first label and 1 for
    the second, whatever the order or frequency of the labels in the data. *)
Theorem transform_two_labels
    (tf : string) (a b : pyval) (enc : CustomTargetEncoder)
    (data : DataFrame) (column : list pyval) :
  str a ≠ str b ->
  __init__ tf [a; b] = Ok enc ->
  data !! tf = Some column ->
  (forall v, v ∈ column -> str v = str a \/ str v = str b) ->
  (exists v, v ∈ column /\ str v = str a) ->
  (exists v, v ∈ column /\ str v = str b) ->
  transform enc data
  = Ok (Some ((fun v => Some (if decide (str v = str a) then 0%Z else 1%Z)) <$> column)).
Proof.
  intros Hne Hinit Hcol Hall Ha Hb.
  rewrite init_two in Hinit. injection Hinit as <-.
  unfold transform. cbn [target_field classes_ class_encoding].
  rewrite Hcol, (observed_pair column (str a) (str b)) by done.
  rewrite list_to_set_pair.
  replace (({[str a; str b]} : gset string) ∩ {[str a; str b]})
    with ({[str a; str b]} : gset string) by set_solver.
  rewrite size_pair by done.
  rewrite !decide_False by (intros H; by apply H).
  do 2 f_equal. unfold series_map, apply_str, astype_str.
  rewrite <- !list_fmap_compose.
  apply list_fmap_ext. intros i v Hv. cbn.
  apply list_elem_of_lookup_2 in Hv.
  destruct (Hall v Hv) as [-> | Hvb].
  - rewrite decide_True by done. by rewrite lookup_insert_ne, lookup_insert_eq by done.
  - rewrite Hvb, decide_False by done. by rewrite lookup_insert_eq.
Qed.

Lemma transform_two_labels_witness :
  transform
    {| target_field := "target"; classes_ := ["A"; "B"];
       class_encoding := <["B" := 1%Z]> (<["A" := 0%Z]> ∅) |}
    {[ "target" := [PStr "B"; PStr "A"; PStr "B"; PStr "A"] ]}
  = Ok (Some [Some 1; Some 0; Some 1; Some 0]%Z).
Proof.
  apply (transform_two_labels "target" (PStr "A") (PStr "B") _
           {[ "target" := [PStr "B"; PStr "A"; PStr "B"; PStr "A"] ]}
           [PStr "B"; PStr "A"; PStr "B"; PStr "A"]).
  - cbn. discriminate.
  - reflexivity.
  - reflexivity.
  - intros v Hv. cbn. set_solver.
  - exists (PStr "A"). split; [set_solver | reflexivity].
  - exists (PStr "B"). split; [set_solver | reflexivity].
Defined.

(** ** Validation failures *)

(** The first check of [transform], on the set it builds. *)
Lemma count_check_raises
    (enc : CustomTargetEncoder) (data : DataFrame) (column : list pyval) :
  let observed_classes : gset string := list_to_set (astype_str column) in
  data !! target_field enc = Some column ->
  size observed_classes ≠ 2 ->
  transform enc data
  = Raise (ValueError (WrongClassCount (classes_ enc) (size observed_classes)
                         observed_classes)).
Proof.
  intros obs Hcol Hn. unfold transform. rewrite Hcol.
  by rewrite decide_True.
Qed.

(** The second check of [transform]: the intersection is taken with the
    whole of [classes_]. *)
Lemma intersection_check_raises
    (enc : CustomTargetEncoder) (data : DataFrame) (column : list pyval) :
  let observed_classes : gset string := list_to_set (astype_str column) in
  data !! target_field enc = Some column ->
  size observed_classes = 2 ->
  size (observed_classes ∩ list_to_set (classes_ enc)) ≠ 2 ->
  transform enc data
  = Raise (ValueError (ClassMismatch observed_classes (classes_ enc))).
Proof.
  intros obs Hcol Hn Hi. unfold transform. rewrite Hcol.
  rewrite decide_False by (intros H; by apply H).
  by rewrite decide_True.
Qed.

(** C2: when the target column is present and the number of distinct
    stringified values in it is not 2, [transform] raises the "wrong class
    count" [ValueError], whatever the encoder's classes are. *)
Theorem transform_wrong_class_count
    (enc : CustomTargetEncoder) (data : DataFrame) (column : list pyval) :
  data !! target_field enc = Some column ->
  distinct_count column ≠ 2 ->
  transform enc data
  = Raise (ValueError (WrongClassCount (classes_ enc) (distinct_count column)
                         (list_to_set (astype_str column)))).
Proof.
  intros Hcol Hn. rewrite <- size_observed in *. by apply count_check_raises.
Qed.

Lemma transform_wrong_class_count_witness :
  transform
    {| target_field := "target"; classes_ := ["A"; "B"];
       class_encoding := <["B" := 1%Z]> (<["A" := 0%Z]> ∅) |}
    {[ "target" := [PStr "A"; PStr "A"; PStr "A"] ]}
  = Raise (ValueError (WrongClassCount ["A"; "B"] 1 {["A"]})).
Proof.
  etransitivity.
  - apply (transform_wrong_class_count _ _ [PStr "A"; PStr "A"; PStr "A"]).
    + reflexivity.
    + vm_compute. lia.
  - vm_compute. reflexivity.
Defined.

(** C3: when the target column is present and holds exactly two distinct
    stringified values, and the encoder has the two classes [c0] and [c1],
    [transform] raises the "class mismatch" [ValueError] as soon as the
    observed set meets [{c0, c1}] in fewer than two elements, which is to
    say as soon as the observed set is not [{c0, c1}]. *)
Theorem transform_class_mismatch
    (enc : CustomTargetEncoder) (c0 c1 : string)
    (data : DataFrame) (column : list pyval) :
  classes_ enc = [c0; c1] ->
  data !! target_field enc = Some column ->
  distinct_count column = 2 ->
  size ((list_to_set (astype_str column) : gset string) ∩ {[c0; c1]}) ≠ 2
  \/ (list_to_set (astype_str column) : gset string) ≠ {[c0; c1]} ->
  transform enc data
  = Raise (ValueError (ClassMismatch (list_to_set (astype_str column)) (classes_ enc))).
Proof.
  intros Hcls Hcol Hn Hmis. rewrite <- size_observed in Hn.
  apply intersection_check_raises; [done | done |].
  rewrite Hcls, list_to_set_pair.
  destruct Hmis as [Hsz | Hneq]; [done |].
  intros Hsz. by apply Hneq, inter_pair_full.
Qed.

Lemma transform_class_mismatch_witness :
  transform
    {| target_field := "target"; classes_ := ["A"; "B"];
       class_encoding := <["B" := 1%Z]> (<["A" := 0%Z]> ∅) |}
    {[ "target" := [PStr "A"; PStr "C"] ]}
  = Raise (ValueError (ClassMismatch {["A"; "C"]} ["A"; "B"])).
Proof.
  etransitivity.
  - apply (transform_class_mismatch _ "A" "B" _ [PStr "A"; PStr "C"]).
    + reflexivity.
    + reflexivity.
    + reflexivity.
    + left. vm_compute. lia.
  - vm_compute. reflexivity.
Defined.

(** ** A dataframe without the target column *)

(** C4: when the encoder's target field is not among the columns of the
    dataframe, [transform] returns [None] and raises nothing, whatever else
    the dataframe holds. *)
Theorem transform_target_absent (enc : CustomTargetEncoder) (data : DataFrame) :
  target_field enc ∉ columns data ->
  transform enc data = Ok None.
Proof.
  intros Habs. unfold transform, columns in *.
  apply not_elem_of_dom_1 in Habs. by rewrite Habs.
Qed.

Lemma transform_target_absent_witness :
  transform
    {| target_field := "target"; classes_ := ["A"; "B"];
       class_encoding := <["B" := 1%Z]> (<["A" := 0%Z]> ∅) |}
    ∅
  = Ok None
  /\ transform
    {| target_field := "target"; classes_ := ["A"; "B"];
       class_encoding := <["B" := 1%Z]> (<["A" := 0%Z]> ∅) |}
    {[ "id" := [PInt 7; PInt 8] ]}
  = Ok None.
Proof.
  split; apply transform_target_absent; vm_compute; set_solver.
Defined.

(** ** Matching goes through [str] on both sides *)

(** The codes of a successful [transform] are the encoding looked up at the
    string of each cell. *)
Lemma transform_codes_lookup
    (enc : CustomTargetEncoder) (data : DataFrame) (column : list pyval)
    (codes : list (option Z)) :
  data !! target_field enc = Some column ->
  transform enc data = Ok (Some codes) ->
  codes = (fun v => class_encoding enc !! str v) <$> column.
Proof.
  intros Hcol. unfold transform. rewrite Hcol.
  repeat case_decide; try discriminate.
  intros [= <-]. unfold series_map, apply_str, astype_str.
  by rewrite <- !list_fmap_compose.
Qed.

(** [transform] sees a column only through the strings of its cells. *)
Lemma transform_str_ext
    (enc : CustomTargetEncoder) (data data' : DataFrame) (column column' : list pyval) :
  data !! target_field enc = Some column ->
  data' !! target_field enc = Some column' ->
  str <$> column = str <$> column' ->
  transform enc data = transform enc data'.
Proof.
  intros Hcol Hcol' Hstr. unfold transform, astype_str.
  by rewrite Hcol, Hcol', Hstr.
Qed.

(** C5: labels are compared as strings, both sides coerced by [str].  The
    constructor keeps the allowed values only as their strings, so two
    configurations with the same strings build the same encoder; and
    [transform] turns every cell of the target column into its string before
    it counts, intersects and maps, so two columns with the same strings give
    the same result, and on success the code of a row is the encoding looked
    up at the string of its cell.  The integer 1 in the data thus matches the
    class "1". *)
Theorem matching_through_str
    (tf : string) (allowed_values allowed_values' : list pyval)
    (enc : CustomTargetEncoder) (data data' : DataFrame) (column column' : list pyval) :
  str <$> allowed_values = str <$> allowed_values' ->
  __init__ tf allowed_values = Ok enc ->
  data !! tf = Some column ->
  data' !! tf = Some column' ->
  str <$> column = str <$> column' ->
  __init__ tf allowed_values' = Ok enc
  /\ classes_ enc = str <$> allowed_values
  /\ transform enc data = transform enc data'
  /\ (forall codes, transform enc data = Ok (Some codes) ->
      codes = (fun v => class_encoding enc !! str v) <$> column).
Proof.
  intros Hvs Hinit Hcol Hcol' Hstr.
  assert (target_field enc = tf /\ classes_ enc = str <$> allowed_values) as [Htf Hcls].
  { unfold __init__ in Hinit.
    destruct ((str <$> allowed_values) !! 0%nat); [| discriminate].
    destruct ((str <$> allowed_values) !! 1%nat); [| discriminate].
    by injection Hinit as <-. }
  subst tf. repeat split.
  - unfold __init__ in *. by rewrite <- Hvs.
  - done.
  - by apply (transform_str_ext enc data data' column column').
  - intros codes. by apply transform_codes_lookup.
Qed.

Lemma matching_through_str_witness :
  __init__ "target" [PInt 0; PInt 1]
  = Ok {| target_field := "target"; classes_ := ["0"; "1"];
          class_encoding := <["1" := 1%Z]> (<["0" := 0%Z]> ∅) |}
  /\ transform
       {| target_field := "target"; classes_ := ["0"; "1"];
          class_encoding := <["1" := 1%Z]> (<["0" := 0%Z]> ∅) |}
       {[ "target" := [PInt 1; PStr "0"; PInt 1] ]}
     = Ok (Some [Some 1; Some 0; Some 1]%Z).
Proof.
  destruct (matching_through_str "target" [PStr "0"; PStr "1"] [PInt 0; PInt 1]
              {| target_field := "target"; classes_ := ["0"; "1"];
                 class_encoding := <["1" := 1%Z]> (<["0" := 0%Z]> ∅) |}
              {[ "target" := [PInt 1; PStr "0"; PInt 1] ]}
              {[ "target" := [PStr "1"; PStr "0"; PStr "1"] ]}
              [PInt 1; PStr "0"; PInt 1] [PStr "1"; PStr "0"; PStr "1"])
    as (Hinit & _ & Htr & _).
  - reflexivity.
  - reflexivity.
  - reflexivity.
  - reflexivity.
  - reflexivity.
  - split; [exact Hinit |]. rewrite Htr. vm_compute. reflexivity.
Defined.

(** ** Configurations that are not two distinct labels *)

(** With exactly two distinct observed strings, [transform] succeeds exactly
    when both are among [classes_], all of it. *)
Lemma transform_accepts_subset
    (enc : CustomTargetEncoder) (data : DataFrame) (column : list pyval) :
  data !! target_field enc = Some column ->
  distinct_count column = 2 ->
  (forall v, v ∈ column -> str v ∈ classes_ enc) ->
  transform enc data
  = Ok (Some ((fun v => class_encoding enc !! str v) <$> column)).
Proof.
  intros Hcol Hn Hsub. unfold transform. rewrite Hcol.
  rewrite size_observed, decide_False by lia.
  replace ((list_to_set (astype_str column) : gset string) ∩ list_to_set (classes_ enc))
    with (list_to_set (astype_str column) : gset string).
  - rewrite size_observed, decide_False by lia.
    unfold series_map, apply_str, astype_str. by rewrite <- !list_fmap_compose.
  - apply set_eq. intros x.
    rewrite elem_of_intersection, !elem_of_list_to_set. unfold astype_str.
    rewrite list_elem_of_fmap. split; [| tauto].
    intros [v [-> Hv]]. split; [| by apply Hsub].
    exists v. done.
Qed.

(** The reading of C9 under which allowed values after the first two have
    no effect fails: an encoder built from ["A", "B", "C"] accepts the column
    ["A", "C"], which the encoder built from ["A", "B"] rejects. *)
Lemma extras_not_ignored :
  ~ (forall (tf : string) (a b : pyval) (rest : list pyval)
            (enc enc2 : CustomTargetEncoder) (data : DataFrame),
        __init__ tf (a :: b :: rest) = Ok enc ->
        __init__ tf [a; b] = Ok enc2 ->
        transform enc data = transform enc2 data).
Proof.
  intros H.
  specialize (H "target" (PStr "A") (PStr "B") [PStr "C"] _ _
                {[ "target" := [PStr "A"; PStr "C"] ]} eq_refl eq_refl).
  vm_compute in H. discriminate H.
Qed.

(** C9, amended: the constructor checks no cardinality.  With fewer than two
    allowed values it raises [IndexError]; with two or more it succeeds, the
    class-to-code mapping is built from the first two strings alone, and
    [classes_] keeps the string of every allowed value, those after the
    second included; [transform] intersects the observed set with all of
    [classes_], so a column with two distinct strings taken from anywhere in
    [classes_] is accepted, and a string that has no code is mapped to the
    missing value. *)
Theorem init_no_cardinality_check (tf : string) (allowed_values : list pyval) :
  (length allowed_values < 2 -> __init__ tf allowed_values = Raise IndexError)
  /\ (forall a b rest, allowed_values = a :: b :: rest ->
       exists enc,
         __init__ tf allowed_values = Ok enc
         /\ target_field enc = tf
         /\ classes_ enc = str a :: str b :: (str <$> rest)
         /\ class_encoding enc = <[str b := 1%Z]> (<[str a := 0%Z]> ∅)
         /\ forall data column,
              data !! tf = Some column ->
              distinct_count column = 2 ->
              (forall v, v ∈ column -> str v ∈ str <$> allowed_values) ->
              transform enc data
              = Ok (Some ((fun v => class_encoding enc !! str v) <$> column))).
Proof.
  split.
  - destruct allowed_values as [| a [| b rest]]; cbn; intros Hlen;
      [reflexivity | reflexivity | lia].
  - intros a b rest ->. eexists. split; [reflexivity |].
    cbn [target_field classes_ class_encoding]. repeat split.
    intros data column Hcol Hn Hsub.
    by apply transform_accepts_subset.
Qed.

Lemma init_no_cardinality_check_witness :
  __init__ "target" [PStr "A"] = Raise IndexError
  /\ exists enc,
       __init__ "target" [PStr "A"; PStr "B"; PStr "C"] = Ok enc
       /\ classes_ enc = ["A"; "B"; "C"]
       /\ transform enc {[ "target" := [PStr "A"; PStr "C"] ]}
          = Ok (Some [Some 0%Z; None]).
Proof.
  split.
  - apply (init_no_cardinality_check "target" [PStr "A"]). cbn. lia.
  - destruct (proj2 (init_no_cardinality_check "target" [PStr "A"; PStr "B"; PStr "C"])
                _ _ _ eq_refl) as (enc & Hinit & _ & Hcls & Henc & Htr).
    exists enc. split; [exact Hinit |]. split; [exact Hcls |].
    rewrite (Htr {[ "target" := [PStr "A"; PStr "C"] ]} [PStr "A"; PStr "C"]).
    + rewrite Henc. vm_compute. reflexivity.
    + reflexivity.
    + reflexivity.
    + intros v Hv. cbn. set_solver.
Defined.

(** C10: when the two allowed values have the same string, the constructor
    succeeds and the class-to-code mapping has the single entry that sends
    this string to 1; with such an encoder [transform] raises a [ValueError]
    on every dataframe that has the target column: the wrong class count
    when the column does not hold two distinct strings, the class mismatch
    when it does. *)
Theorem duplicate_labels_never_encode (tf : string) (a b : pyval) :
  str a = str b ->
  exists enc,
    __init__ tf [a; b] = Ok enc
    /\ class_encoding enc = {[ str a := 1%Z ]}
    /\ forall data column,
         data !! tf = Some column ->
         (distinct_count column ≠ 2
          /\ transform enc data
             = Raise (ValueError (WrongClassCount (classes_ enc) (distinct_count column)
                                    (list_to_set (astype_str column)))))
         \/ (distinct_count column = 2
             /\ transform enc data
                = Raise (ValueError (ClassMismatch (list_to_set (astype_str column))
                                       (classes_ enc)))).
Proof.
  intros Hab. eexists. split; [apply init_two |].
  cbn [class_encoding classes_]. rewrite <- Hab. split.
  - apply insert_insert_eq.
  - intros data column Hcol.
    destruct (decide (distinct_count column = 2)) as [Hn | Hn]; [right | left].
    + split; [done |]. rewrite <- size_observed in Hn.
      apply (intersection_check_raises
               {| target_field := tf; classes_ := [str a; str a];
                  class_encoding := <[str a := 1%Z]> (<[str a := 0%Z]> ∅) |});
        [done | done |].
      cbn [classes_]. rewrite list_to_set_pair. intros Hsz.
      assert (size ((list_to_set (astype_str column) : gset string) ∩ {[str a; str a]}) <= 1)%nat;
        [| lia].
      rewrite <- (size_pair_same (str a)). apply subseteq_size. set_solver.
    + split; [done |]. rewrite <- size_observed in *.
      by apply (count_check_raises
                  {| target_field := tf; classes_ := [str a; str a];
                     class_encoding := <[str a := 1%Z]> (<[str a := 0%Z]> ∅) |}).
Qed.

Lemma duplicate_labels_never_encode_witness :
  exists enc,
    __init__ "target" [PInt 1; PStr "1"] = Ok enc
    /\ class_encoding enc = {[ "1" := 1%Z ]}
    /\ transform enc {[ "target" := [PStr "1"; PStr "0"] ]}
       = Raise (ValueError (ClassMismatch {["1"; "0"]} ["1"; "1"])).
Proof.
  destruct (duplicate_labels_never_encode "target" (PInt 1) (PStr "1") eq_refl)
    as (enc & Hinit & Henc & Htr).
  exists enc. split; [exact Hinit |]. split; [exact Henc |].
  injection Hinit as <-. vm_compute. reflexivity.
Defined.

(** ** Objects: identity and absence of mutation *)

Section ObjectProperties.

Context {blob : Type}.
Implicit Types (w : world blob) (self data : loc).

(** On an encoder and a dataframe of the store, the method is the value
    layer's [transform] of what the two references hold, and the world is
    handed back as it came. *)
Lemma transform_method_spec w self data enc df :
  heap w !! self = Some (OEncoder enc) ->
  heap w !! data = Some (OFrame df) ->
  transform_method self data w = (transform enc df, w).
Proof.
  intros Hself Hdata.
  unfold transform_method, get_encoder, get_frame, deref, bind, ret, lift.
  by rewrite Hself, Hdata.
Qed.

Lemma transform_method_frame w self data :
  snd (transform_method self data w) = w.
Proof.
  unfold transform_method, get_encoder, get_frame, deref, bind, ret, raise, lift.
  destruct (heap w !! self) as [[enc | d] |]; cbn; try reflexivity.
  destruct (heap w !! data) as [[enc' | d] |]; reflexivity.
Qed.

Lemma transform_targets_method w self data :
  transform_targets self data w = transform_method self data w.
Proof.
  unfold transform_targets, bind, ret.
  by destruct (transform_method self data w) as [[r | e] w'].
Qed.

End ObjectProperties.

(** C7: [fit] returns the very reference it was called on and leaves the
    world, hence every attribute of the encoder, as it was, for any [data]
    argument, which it never looks at; and [train_target_encoder] returns
    the encoder it was given, unchanged. *)
Theorem fit_is_noop
    {blob : Type} (w : world blob) (self data : loc) (enc : CustomTargetEncoder) :
  heap w !! self = Some (OEncoder enc) ->
  fit self data w = (Ok self, w)
  /\ train_target_encoder self data w = (Ok self, w)
  /\ heap (snd (train_target_encoder self data w)) !! self = Some (OEncoder enc).
Proof.
  intros Hself.
  assert (train_target_encoder self data w = (Ok self, w)) as Htrain.
  { unfold train_target_encoder, get_encoder, deref, fit, bind, ret.
    by rewrite Hself. }
  repeat split; [done |]. by rewrite Htrain.
Qed.

Lemma fit_is_noop_witness :
  let enc := {| target_field := "target"; classes_ := ["A"; "B"];
                class_encoding := <["B" := 1%Z]> (<["A" := 0%Z]> ∅) |} in
  let w : world string := {| heap := {[ 0%nat := OEncoder enc ]}; disk := ∅ |} in
  fit 0%nat 5%nat w = (Ok 0%nat, w)
  /\ train_target_encoder 0%nat 5%nat w = (Ok 0%nat, w).
Proof.
  intros enc w.
  destruct (fit_is_noop w 0%nat 5%nat enc eq_refl) as (Hfit & Htrain & _).
  split; [exact Hfit | exact Htrain].
Defined.

(** C8: a call of [transform], directly or through [transform_targets],
    hands the world back as it received it, so that neither the dataframe
    nor any attribute of the encoder, the class-to-code mapping among them,
    is changed; a second call on the same arguments then gives the same
    result. *)
Theorem transform_side_effect_free
    {blob : Type} (w : world blob) (self data : loc) :
  snd (transform_method self data w) = w
  /\ snd (transform_targets self data w) = w
  /\ transform_method self data (snd (transform_method self data w))
     = transform_method self data w.
Proof.
  repeat split.
  - apply transform_method_frame.
  - rewrite transform_targets_method. apply transform_method_frame.
  - by rewrite transform_method_frame.
Qed.

(** ** Persistence *)

(** *** The machine runs what the pickler emits *)

Lemma pop_mark_items (items stack : list pvalue) :
  Forall (fun v => is_mark v = false) items ->
  pop_mark (reverse items ++ VMark :: stack)%list = Some (items, stack).
Proof.
  induction items as [| v items IH] using rev_ind; intros Hnm; [done |].
  apply Forall_app in Hnm as [Hitems Hv]. apply Forall_inv in Hv.
  rewrite reverse_app. cbn. rewrite Hv. by rewrite IH.
Qed.

Section Emit.
Context {A : Type}.
Variable emit : A -> list opcode.
Variable embed : A -> pvalue.
Hypothesis run_emit : forall x rest stack,
  run (emit x ++ rest)%list stack = run rest (embed x :: stack).
Hypothesis embed_no_mark : forall x, is_mark (embed x) = false.

Lemma run_emit_items (l : list A) rest stack :
  run ((l ≫= emit) ++ rest)%list stack = run rest (reverse (embed <$> l) ++ stack)%list.
Proof.
  revert stack. induction l as [| x l IH]; intros stack; [done |].
  rewrite bind_cons, fmap_cons, reverse_cons, <- !app_assoc, run_emit, IH. done.
Qed.

Lemma run_emit_list (l : list A) rest stack :
  run (emit_list emit l ++ rest)%list stack = run rest (VList (embed <$> l) :: stack).
Proof.
  unfold emit_list. cbn. rewrite <- app_assoc, run_emit_items. cbn.
  rewrite pop_mark_items; [done |].
  apply Forall_fmap, Forall_forall. intros x _. apply embed_no_mark.
Qed.

Lemma run_emit_entries (l : list (string * A)) rest stack :
  run ((l ≫= fun kv => BINUNICODE kv.1 :: emit kv.2) ++ rest)%list stack
  = run rest (reverse (l ≫= fun kv => [VCell (PStr kv.1); embed kv.2]) ++ stack)%list.
Proof.
  revert stack. induction l as [| [k x] l IH]; intros stack; [done |].
  rewrite !bind_cons, reverse_app, <- !app_assoc.
  change (reverse [VCell (PStr (k, x).1); embed (k, x).2]) with [embed x; VCell (PStr k)].
  cbn [fst snd app run step]. rewrite run_emit, IH. done.
Qed.

Lemma pairs_entries (l : list (string * A)) :
  pairs (l ≫= fun kv => [VCell (PStr kv.1); embed kv.2]) = Some (embed_entry embed <$> l).
Proof. induction l as [| [k x] l IH]; [done |]. cbn. by rewrite IH. Qed.

Lemma run_emit_dict (d : gmap string A) rest stack :
  run (emit_dict emit d ++ rest)%list stack
  = run rest (VDict (embed_entry embed <$> map_to_list d) :: stack).
Proof.
  unfold emit_dict. cbn. rewrite <- app_assoc, run_emit_entries. cbn.
  rewrite pop_mark_items.
  - by rewrite pairs_entries.
  - apply Forall_bind, Forall_forall. intros [k x] _.
    repeat constructor. apply embed_no_mark.
Qed.

Variable decode : pvalue -> option A.
Hypothesis decode_embed : forall x, decode (embed x) = Some x.

Lemma decode_list_embed (l : list A) :
  decode_list decode (VList (embed <$> l)) = Some l.
Proof.
  cbn. apply mapM_fmap_Forall_Some, Forall_forall. intros x _. apply decode_embed.
Qed.

Lemma decode_entries_embed (d : gmap string A) :
  decode_entries decode (embed_entry embed <$> map_to_list d) = Some d.
Proof.
  unfold decode_entries.
  rewrite (mapM_fmap_Forall_Some _ (embed_entry embed) (map_to_list d)).
  - f_equal. rewrite <- (list_to_map_to_list d) at 2.
    symmetry. apply list_to_map_proper; [apply NoDup_fst_map_to_list |].
    symmetry. apply reverse_Permutation.
  - apply Forall_forall. intros [k x] _. unfold decode_entry, embed_entry. cbn.
    by rewrite decode_embed.
Qed.

End Emit.

(** Every object is read back from its pickle. *)
Lemma joblib_roundtrip (o : obj) : joblib_unpickle (joblib_pickle o) = Some o.
Proof.
  unfold joblib_unpickle. destruct o as [[tf cs ce] | data]; cbn -[emit_list emit_dict String.eqb].
  - rewrite (run_emit_list emit_str (fun s => VCell (PStr s))) by done.
    cbn -[emit_list emit_dict String.eqb].
    rewrite (run_emit_dict emit_int (fun z => VCell (PInt z))) by done.
    cbn -[decode_list decode_dict].
    rewrite (decode_list_embed (fun s => VCell (PStr s)) decode_str) by done.
    cbn -[decode_entries].
    rewrite (decode_entries_embed (fun z => VCell (PInt z)) decode_int) by done.
    done.
  - rewrite (run_emit_dict (emit_list emit_cell) (fun col => VList (VCell <$> col))).
    + cbn -[decode_entries].
      rewrite (decode_entries_embed (fun col => VList (VCell <$> col))
                 (decode_list decode_cell)); [done |].
      intros col. by apply (decode_list_embed VCell decode_cell).
    + intros col rest stack.
      apply (run_emit_list emit_cell VCell); [| done].
      intros v rest' stack'. by destruct v as [| | [|] |].
    + done.
Qed.

(** *** Saving and loading *)

Section SaveLoadSteps.

Context {blob : Type}.
Variable pickle : obj -> blob.
Variable unpickle : blob -> option obj.
Variable open_wb : string -> outcome string.
Variable open_rb : string -> outcome string.
Implicit Types (w : world blob).

(** A save that succeeded has opened the path and written the pickle of the
    object there, and has done nothing else. *)
Lemma save_target_encoder_inv w w1 target_encoder o path :
  heap w !! target_encoder = Some o ->
  save_target_encoder pickle open_wb target_encoder path w = (Ok tt, w1) ->
  exists file,
    open_wb path = Ok file
    /\ w1 = {| heap := heap w; disk := <[file := pickle o]> (disk w) |}.
Proof.
  intros Hte. unfold save_target_encoder, deref, write_file, bind. rewrite Hte.
  destruct (open_wb path) as [file | e]; [| discriminate].
  intros [= <-]. by exists file.
Qed.

Lemma load_target_encoder_ok w path file b o :
  open_rb path = Ok file ->
  disk w !! file = Some b ->
  unpickle b = Some o ->
  load_target_encoder unpickle open_rb path w
  = (Ok (fresh (dom (heap w))),
     {| heap := <[fresh (dom (heap w)) := o]> (heap w); disk := disk w |}).
Proof.
  intros Hfile Hb Ho. unfold load_target_encoder, read_file, alloc, bind.
  by rewrite Hfile, Hb, Ho.
Qed.

End SaveLoadSteps.

Section Persistence.

Variable open_wb : string -> outcome string.
Variable open_rb : string -> outcome string.

(** C6: when saving an encoder to a path has succeeded and reading the path
    reaches the file that writing it reached, loading the path gives a new
    encoder object with the attributes of the saved one, the saved one being
    left as it was; on every dataframe the two give the same [transform]
    result, be it the codes, [None] or the exception. *)
Theorem save_load_roundtrip
    (w w1 : world (list opcode)) (target_encoder : loc) (enc : CustomTargetEncoder)
    (file_path_and_name : string) :
  heap w !! target_encoder = Some (OEncoder enc) ->
  save_target_encoder joblib_pickle open_wb target_encoder file_path_and_name w
  = (Ok tt, w1) ->
  open_rb file_path_and_name = open_wb file_path_and_name ->
  exists loaded w2,
    load_target_encoder joblib_unpickle open_rb file_path_and_name w1 = (Ok loaded, w2)
    /\ loaded ≠ target_encoder
    /\ heap w2 !! target_encoder = Some (OEncoder enc)
    /\ heap w2 !! loaded = Some (OEncoder enc)
    /\ (forall data,
          fst (transform_method loaded data w2)
          = fst (transform_method target_encoder data w2))
    /\ (forall data df,
          heap w !! data = Some (OFrame df) ->
          transform_method target_encoder data w = (transform enc df, w)
          /\ transform_method loaded data w2 = (transform enc df, w2)).
Proof.
  intros Hte Hsave Hopen.
  destruct (save_target_encoder_inv _ _ _ _ _ _ _ Hte Hsave) as (file & Hwb & ->).
  rewrite Hwb in Hopen.
  set (w1 := {| heap := heap w;
                disk := <[file := joblib_pickle (OEncoder enc)]> (disk w) |}).
  set (loaded := fresh (dom (heap w1))).
  set (w2 := {| heap := <[loaded := OEncoder enc]> (heap w1); disk := disk w1 |}).
  assert (heap w !! loaded = None) as Hfresh.
  { apply not_elem_of_dom_1, is_fresh. }
  assert (loaded ≠ target_encoder) as Hne by congruence.
  assert (heap w2 !! loaded = Some (OEncoder enc)) as Hl2
    by apply lookup_insert_eq.
  assert (heap w2 !! target_encoder = Some (OEncoder enc)) as Ht2
    by (cbn; by rewrite lookup_insert_ne).
  exists loaded, w2. repeat split; try done.
  - apply (load_target_encoder_ok _ _ w1 _ file (joblib_pickle (OEncoder enc)));
      [done | apply lookup_insert_eq | apply joblib_roundtrip].
  - intros data.
    unfold transform_method, get_encoder, get_frame, deref, bind, ret, raise, lift.
    by rewrite Hl2, Ht2.
  - by apply transform_method_spec.
  - apply transform_method_spec; [done |].
    cbn. rewrite lookup_insert_ne; [done | congruence].
Qed.

End Persistence.

Lemma save_load_roundtrip_witness :
  let enc := {| target_field := "target"; classes_ := ["A"; "B"];
                class_encoding := <["B" := 1%Z]> (<["A" := 0%Z]> ∅) |} in
  let df : DataFrame := {[ "target" := [PStr "B"; PStr "A"] ]} in
  let w : world (list opcode) :=
    {| heap := {[ 0%nat := OEncoder enc; 1%nat := OFrame df ]}; disk := ∅ |} in
  let w1 := snd (save_target_encoder joblib_pickle Ok 0%nat "encoder.joblib" w) in
  exists loaded w2,
    load_target_encoder joblib_unpickle Ok "encoder.joblib" w1 = (Ok loaded, w2)
    /\ transform_method loaded 1%nat w2 = (Ok (Some [Some 1; Some 0]%Z), w2).
Proof.
  intros enc df w w1.
  destruct (save_load_roundtrip Ok Ok w w1 0%nat enc "encoder.joblib"
              eq_refl eq_refl eq_refl)
    as (loaded & w2 & Hload & _ & _ & _ & _ & Htr).
  exists loaded, w2. split; [exact Hload |].
  exact (proj2 (Htr 1%nat df eq_refl)).
Defined.

Example transform_BABA :
  forall enc, __init__ "target" [PStr "A"; PStr "B"] = Ok enc ->
  transform enc {[ "target" := [PStr "B"; PStr "A"; PStr "B"; PStr "A"] ]}
  = Ok (Some [Some 1; Some 0; Some 1; Some 0]%Z).
Proof. intros enc [= <-]. vm_compute. reflexivity. Qed.

(** * Further properties of the encoder *)

(** ** What a successful [transform] tells *)

(** When both checks pass, every observed string is among [classes_]. *)
Lemma checks_pass_subset (observed : gset string) (classes : list string) :
  size observed = 2 ->
  size (observed ∩ list_to_set classes) = 2 ->
  forall s, s ∈ observed -> s ∈ classes.
Proof.
  intros Hn Hi s Hs.
  assert (observed ∩ list_to_set classes = observed) as Heq.
  { apply set_subseteq_size_eq; [set_solver | lia]. }
  rewrite <- Heq in Hs. apply elem_of_intersection in Hs as [_ Hs].
  by apply elem_of_list_to_set in Hs.
Qed.

Lemma transform_success_inv
    (enc : CustomTargetEncoder) (data : DataFrame) (codes : list (option Z)) :
  transform enc data = Ok (Some codes) ->
  exists column,
    data !! target_field enc = Some column
    /\ size (list_to_set (astype_str column) : gset string) = 2
    /\ size ((list_to_set (astype_str column) : gset string)
             ∩ list_to_set (classes_ enc)) = 2
    /\ codes = (fun v => class_encoding enc !! str v) <$> column.
Proof.
  intros Htr. unfold transform in Htr.
  destruct (data !! target_field enc) as [column |] eqn:Hcol; [| discriminate].
  exists column. cbn zeta in Htr.
  destruct (decide (size (list_to_set (astype_str column) : gset string) ≠ 2))
    as [| Hn]; [discriminate |].
  destruct (decide (size ((list_to_set (astype_str column) : gset string)
                          ∩ list_to_set (classes_ enc)) ≠ 2)) as [| Hi];
    [discriminate |].
  injection Htr as <-.
  repeat split; [apply dec_stable, Hn | apply dec_stable, Hi |].
  unfold series_map, apply_str, astype_str. by rewrite <- !list_fmap_compose.
Qed.

(** X1: [transform] returns codes exactly when the target column is present,
    holds exactly two distinct strings and every cell's string is among
    [classes_]; the codes are then the encoding looked up at each cell's
    string, row by row. *)
Theorem transform_success_iff
    (enc : CustomTargetEncoder) (data : DataFrame) (codes : list (option Z)) :
  transform enc data = Ok (Some codes)
  <-> exists column,
        data !! target_field enc = Some column
        /\ distinct_count column = 2
        /\ (forall v, v ∈ column -> str v ∈ classes_ enc)
        /\ codes = (fun v => class_encoding enc !! str v) <$> column.
Proof.
  split.
  - intros Htr.
    destruct (transform_success_inv enc data codes Htr)
      as (column & Hcol & Hn & Hi & Hcodes).
    exists column. repeat split; [done | by rewrite <- size_observed | | done].
    intros v Hv. apply (checks_pass_subset _ _ Hn Hi).
    apply elem_of_list_to_set. unfold astype_str. by apply list_elem_of_fmap_2.
  - intros (column & Hcol & Hn & Hsub & ->).
    by apply transform_accepts_subset.
Qed.

(** X2: [transform] returns [None] exactly when the target field is not a
    column of the dataframe; a present column never gives [None]. *)
Theorem transform_none_iff (enc : CustomTargetEncoder) (data : DataFrame) :
  transform enc data = Ok None <-> target_field enc ∉ columns data.
Proof.
  unfold columns. rewrite not_elem_of_dom. unfold transform.
  destruct (data !! target_field enc) as [column |]; [| done].
  cbn zeta. split; [| discriminate].
  repeat case_decide; discriminate.
Qed.

Lemma length_remove_dups_le {A} `{EqDecision A} (l : list A) :
  (length (remove_dups l) <= length l)%nat.
Proof.
  induction l as [| x l IH]; cbn; [lia |].
  destruct (decide_rel elem_of x l); cbn; lia.
Qed.

(** X3: on success there is one code per row, and the column had at least
    two rows. *)
Theorem transform_codes_length
    (enc : CustomTargetEncoder) (data : DataFrame) (column : list pyval)
    (codes : list (option Z)) :
  data !! target_field enc = Some column ->
  transform enc data = Ok (Some codes) ->
  length codes = length column /\ (2 <= length column)%nat.
Proof.
  intros Hcol Htr.
  destruct (transform_success_inv enc data codes Htr)
    as (column' & Hcol' & Hn & _ & ->).
  assert (column' = column) as -> by congruence.
  split; [by rewrite length_fmap |].
  rewrite size_observed in Hn. unfold distinct_count in Hn.
  pose proof (length_remove_dups_le (astype_str column)) as Hle.
  unfold astype_str in Hle at 2. rewrite length_fmap in Hle. lia.
Qed.

Lemma transform_codes_length_witness :
  length [Some 1%Z; Some 0%Z; Some 1%Z] = length [PStr "B"; PInt 7; PStr "B"]
  /\ (2 <= length [PStr "B"; PInt 7; PStr "B"])%nat.
Proof.
  apply (transform_codes_length
           {| target_field := "y"; classes_ := ["7"; "B"];
              class_encoding := <["B" := 1%Z]> (<["7" := 0%Z]> ∅) |}
           {[ "y" := [PStr "B"; PInt 7; PStr "B"] ]}).
  - reflexivity.
  - vm_compute. reflexivity.
Defined.

(** A successful [transform] of an encoder with the two classes [c0] and
    [c1] has seen exactly these two, and they differ. *)
Lemma success_two_classes
    (enc : CustomTargetEncoder) (c0 c1 : string) (data : DataFrame)
    (codes : list (option Z)) :
  classes_ enc = [c0; c1] ->
  transform enc data = Ok (Some codes) ->
  exists column,
    data !! target_field enc = Some column
    /\ c0 ≠ c1
    /\ (list_to_set (astype_str column) : gset string) = {[c0; c1]}
    /\ codes = (fun v => class_encoding enc !! str v) <$> column.
Proof.
  intros Hcls Htr.
  destruct (transform_success_inv enc data codes Htr)
    as (column & Hcol & Hn & Hi & Hcodes).
  rewrite Hcls, list_to_set_pair in Hi.
  pose proof (inter_pair_full _ _ _ Hn Hi) as Hobs.
  exists column. repeat split; try done.
  intros ->. rewrite Hobs, size_pair_same in Hn. lia.
Qed.

(** X4: an encoder built from two allowed values never gives a missing
    code: whenever its [transform] returns codes, each code is 0 or 1, and
    both 0 and 1 occur among them. *)
Theorem transform_codes_binary
    (tf : string) (a b : pyval) (enc : CustomTargetEncoder)
    (data : DataFrame) (codes : list (option Z)) :
  __init__ tf [a; b] = Ok enc ->
  transform enc data = Ok (Some codes) ->
  (forall c, c ∈ codes -> c = Some 0%Z \/ c = Some 1%Z)
  /\ Some 0%Z ∈ codes
  /\ Some 1%Z ∈ codes.
Proof.
  intros Hinit Htr. rewrite init_two in Hinit. injection Hinit as <-.
  pose proof Htr as Htwo.
  eapply (success_two_classes _ (str a) (str b)) in Htwo
    as (column & Hcol & Hne & Hobs & ->); [| reflexivity].
  cbn [class_encoding].
  assert (forall v, v ∈ column -> str v = str a \/ str v = str b) as Hall.
  { intros v Hv.
    assert (str v ∈ (list_to_set (astype_str column) : gset string)) as Hin.
    { apply elem_of_list_to_set. unfold astype_str. by apply list_elem_of_fmap_2. }
    rewrite Hobs in Hin. set_solver. }
  assert (forall s, s ∈ ({[str a; str b]} : gset string) ->
                    exists v, v ∈ column /\ str v = s) as Hex.
  { intros s Hs. rewrite <- Hobs in Hs.
    apply elem_of_list_to_set in Hs. unfold astype_str in Hs.
    apply list_elem_of_fmap in Hs as (v & -> & Hv). by exists v. }
  repeat split.
  - intros c Hc. apply list_elem_of_fmap in Hc as (v & -> & Hv).
    destruct (Hall v Hv) as [-> | ->].
    + left. by rewrite lookup_insert_ne, lookup_insert_eq.
    + right. by rewrite lookup_insert_eq.
  - destruct (Hex (str a)) as (v & Hv & Hva); [set_solver |].
    apply list_elem_of_fmap. exists v. split; [| done].
    by rewrite Hva, lookup_insert_ne, lookup_insert_eq.
  - destruct (Hex (str b)) as (v & Hv & Hvb); [set_solver |].
    apply list_elem_of_fmap. exists v. split; [| done].
    by rewrite Hvb, lookup_insert_eq.
Qed.

Lemma transform_codes_binary_witness :
  (forall c, c ∈ [Some 1%Z; Some 0%Z; Some 1%Z] -> c = Some 0%Z \/ c = Some 1%Z)
  /\ Some 0%Z ∈ [Some 1%Z; Some 0%Z; Some 1%Z]
  /\ Some 1%Z ∈ [Some 1%Z; Some 0%Z; Some 1%Z].
Proof.
  apply (transform_codes_binary "y" (PInt 7) (PStr "B")
           {| target_field := "y"; classes_ := ["7"; "B"];
              class_encoding := <["B" := 1%Z]> (<["7" := 0%Z]> ∅) |}
           {[ "y" := [PStr "B"; PInt 7; PStr "B"] ]}).
  - reflexivity.
  - vm_compute. reflexivity.
Defined.

(** X5: the order of the allowed values decides the codes.  When the
    encoder built from [a, b] encodes a dataframe, the encoder built from
    [b, a] encodes it too, with every code [c] replaced by [1 - c]. *)
Theorem transform_swapped_labels
    (tf : string) (a b : pyval) (enc enc' : CustomTargetEncoder)
    (data : DataFrame) (codes : list (option Z)) :
  __init__ tf [a; b] = Ok enc ->
  __init__ tf [b; a] = Ok enc' ->
  transform enc data = Ok (Some codes) ->
  transform enc' data
  = Ok (Some ((fun code : option Z => (fun c => (1 - c)%Z) <$> code) <$> codes)).
Proof.
  intros Hinit Hinit' Htr.
  rewrite init_two in Hinit, Hinit'.
  injection Hinit as <-. injection Hinit' as <-.
  pose proof Htr as Htwo.
  eapply (success_two_classes _ (str a) (str b)) in Htwo
    as (column & Hcol & Hne & Hobs & ->); [| reflexivity].
  cbn [target_field class_encoding] in *.
  assert (forall v, v ∈ column -> str v = str a \/ str v = str b) as Hall.
  { intros v Hv.
    assert (str v ∈ (list_to_set (astype_str column) : gset string)) as Hin.
    { apply elem_of_list_to_set. unfold astype_str. by apply list_elem_of_fmap_2. }
    rewrite Hobs in Hin. set_solver. }
  rewrite (transform_accepts_subset _ data column); cbn [target_field classes_]; try done.
  - do 2 f_equal. rewrite <- list_fmap_compose.
    apply list_fmap_ext. intros i v Hv. cbn.
    apply list_elem_of_lookup_2 in Hv.
    destruct (Hall v Hv) as [-> | ->].
    + rewrite lookup_insert_eq.
      by rewrite lookup_insert_ne, lookup_insert_eq by done.
    + rewrite lookup_insert_eq.
      by rewrite lookup_insert_ne, lookup_insert_eq by done.
  - destruct (transform_success_inv _ data _ Htr) as (column' & Hcol' & Hn & _).
    cbn [target_field] in Hcol'.
    assert (column' = column) as -> by congruence.
    by rewrite <- size_observed.
  - intros v Hv. destruct (Hall v Hv) as [-> | ->]; set_solver.
Qed.

Lemma transform_swapped_labels_witness :
  transform
    {| target_field := "y"; classes_ := ["B"; "A"];
       class_encoding := <["A" := 1%Z]> (<["B" := 0%Z]> ∅) |}
    {[ "y" := [PStr "B"; PStr "A"; PStr "B"] ]}
  = Ok (Some [Some 0%Z; Some 1%Z; Some 0%Z]).
Proof.
  apply (transform_swapped_labels "y" (PStr "A") (PStr "B")
           {| target_field := "y"; classes_ := ["A"; "B"];
              class_encoding := <["B" := 1%Z]> (<["A" := 0%Z]> ∅) |}
           {| target_field := "y"; classes_ := ["B"; "A"];
              class_encoding := <["A" := 1%Z]> (<["B" := 0%Z]> ∅) |}
           {[ "y" := [PStr "B"; PStr "A"; PStr "B"] ]}
           [Some 1%Z; Some 0%Z; Some 1%Z]).
  - reflexivity.
  - reflexivity.
  - vm_compute. reflexivity.
Defined.

(** ** What [transform] does not depend on *)

(** X6: the two checks of [transform] see the target column only through
    the set of its strings.  Two columns with the same set of strings, in
    any row order and with any multiplicities, are both rejected with the
    very same exception or both encoded, each row by its own string. *)
Theorem transform_same_observed
    (enc : CustomTargetEncoder) (data data' : DataFrame) (column column' : list pyval) :
  data !! target_field enc = Some column ->
  data' !! target_field enc = Some column' ->
  (list_to_set (astype_str column) : gset string) = list_to_set (astype_str column') ->
  transform enc data'
  = match transform enc data with
    | Ok (Some _) => Ok (Some ((fun v => class_encoding enc !! str v) <$> column'))
    | r => r
    end.
Proof.
  intros Hcol Hcol' Hobs. unfold transform. rewrite Hcol, Hcol'. cbn zeta.
  rewrite Hobs. repeat case_decide; try reflexivity.
  unfold series_map, apply_str, astype_str. by rewrite <- !list_fmap_compose.
Qed.

Lemma transform_same_observed_witness :
  transform
    {| target_field := "y"; classes_ := ["A"; "B"];
       class_encoding := <["B" := 1%Z]> (<["A" := 0%Z]> ∅) |}
    {[ "y" := [PStr "A"; PStr "A"; PStr "B"; PStr "A"] ]}
  = Ok (Some [Some 0%Z; Some 0%Z; Some 1%Z; Some 0%Z]).
Proof.
  etransitivity.
  - apply (transform_same_observed _ {[ "y" := [PStr "B"; PStr "A"] ]} _
             [PStr "B"; PStr "A"] [PStr "A"; PStr "A"; PStr "B"; PStr "A"]).
    + reflexivity.
    + reflexivity.
    + vm_compute. reflexivity.
  - vm_compute. reflexivity.
Defined.

(** X7: [transform] reads the target column and nothing else: adding,
    replacing or dropping any other column leaves its result as it was. *)
Theorem transform_other_columns
    (enc : CustomTargetEncoder) (data : DataFrame) (name : string) (cells : list pyval) :
  name ≠ target_field enc ->
  transform enc (<[name := cells]> data) = transform enc data
  /\ transform enc (delete name data) = transform enc data.
Proof.
  intros Hne. unfold transform.
  by rewrite lookup_insert_ne, lookup_delete_ne.
Qed.

Lemma transform_other_columns_witness :
  let enc := {| target_field := "y"; classes_ := ["A"; "B"];
                class_encoding := <["B" := 1%Z]> (<["A" := 0%Z]> ∅) |} in
  let data : DataFrame := {[ "y" := [PStr "B"; PStr "A"]; "id" := [PInt 1; PInt 2] ]} in
  transform enc (<["id" := [PInt 30; PInt 40]]> data) = transform enc data
  /\ transform enc (delete "id" data) = transform enc data.
Proof.
  intros enc data. apply transform_other_columns. discriminate.
Defined.

(** ** The encoder the constructor builds *)

(** X8: whenever the constructor succeeds, the encoder has the target field
    it was given and one class per allowed value, at least two; the second
    class always has code 1, the first has code 0 unless it equals the
    second, the mapping has no other key, and no code other than 0 and 1. *)
Theorem init_encoding_invariant
    (tf : string) (allowed_values : list pyval) (enc : CustomTargetEncoder) :
  __init__ tf allowed_values = Ok enc ->
  target_field enc = tf
  /\ length (classes_ enc) = length allowed_values
  /\ (2 <= length allowed_values)%nat
  /\ exists c0 c1,
       classes_ enc !! 0%nat = Some c0
       /\ classes_ enc !! 1%nat = Some c1
       /\ class_encoding enc !! c1 = Some 1%Z
       /\ (c0 ≠ c1 -> class_encoding enc !! c0 = Some 0%Z)
       /\ dom (class_encoding enc) = {[c0; c1]}
       /\ forall s code, class_encoding enc !! s = Some code ->
                         code = 0%Z \/ code = 1%Z.
Proof.
  destruct allowed_values as [| a [| b rest]]; cbn; try discriminate.
  intros [= <-]. cbn [target_field classes_ class_encoding].
  repeat split.
  - cbn. by rewrite length_fmap.
  - lia.
  - exists (str a), (str b). repeat split.
    + apply lookup_insert_eq.
    + intros Hne. by rewrite lookup_insert_ne, lookup_insert_eq.
    + rewrite !dom_insert_L, dom_empty_L. set_solver.
    + intros s code.
      rewrite lookup_insert. case_decide; [intros [= <-]; by right |].
      rewrite lookup_insert. case_decide; [intros [= <-]; by left |].
      by rewrite lookup_empty.
Qed.

Lemma init_encoding_invariant_witness :
  exists enc,
    __init__ "y" [PBool false; PBool true; PNone] = Ok enc
    /\ length (classes_ enc) = 3%nat
    /\ class_encoding enc !! "True" = Some 1%Z.
Proof.
  eexists. split; [reflexivity |].
  destruct (init_encoding_invariant "y" [PBool false; PBool true; PNone] _ eq_refl)
    as (_ & Hlen & _ & c0 & c1 & _ & Hc1 & Hone & _).
  split; [exact Hlen |].
  injection Hc1 as <-. exact Hone.
Defined.

(** ** Building, training and using an encoder object *)

Section ObjectSteps.

Context {blob : Type}.
Implicit Types (w : world blob).

Lemma bind_ok {A B} (m : PyM blob A) (k : A -> PyM blob B) w a w' :
  m w = (Ok a, w') -> bind m k w = k a w'.
Proof. intros Hm. unfold bind. by rewrite Hm. Qed.

Lemma bind_raise {A B} (m : PyM blob A) (k : A -> PyM blob B) w e w' :
  m w = (Raise e, w') -> bind m k w = (Raise e, w').
Proof. intros Hm. unfold bind. by rewrite Hm. Qed.

Lemma fresh_loc_unused w : heap w !! fresh (dom (heap w)) = None.
Proof. apply not_elem_of_dom_1, is_fresh. Qed.

Lemma get_target_encoder_ok w data_schema enc :
  __init__ (target data_schema) (allowed_target_values data_schema) = Ok enc ->
  get_target_encoder data_schema w
  = (Ok (fresh (dom (heap w))),
     {| heap := <[fresh (dom (heap w)) := OEncoder enc]> (heap w); disk := disk w |}).
Proof. intros Hinit. unfold get_target_encoder, lift, bind. by rewrite Hinit. Qed.

Lemma train_target_encoder_ok w target_encoder train_data enc :
  heap w !! target_encoder = Some (OEncoder enc) ->
  train_target_encoder target_encoder train_data w = (Ok target_encoder, w).
Proof.
  intros Hte. unfold train_target_encoder, get_encoder, deref, fit, bind, ret.
  by rewrite Hte.
Qed.

End ObjectSteps.

(** X9: [get_target_encoder] raises [IndexError] and leaves the world as it
    was when the schema has fewer than two allowed target values; with two
    or more it returns a reference that no object had, pointing to an
    encoder for the schema's target field whose classes are the strings of
    all allowed values, and it changes no existing object and no file. *)
Theorem get_target_encoder_spec
    {blob : Type} (w : world blob) (data_schema : BinaryClassificationSchema) :
  (length (allowed_target_values data_schema) < 2 ->
   get_target_encoder data_schema w = (Raise IndexError, w))
  /\ (2 <= length (allowed_target_values data_schema) ->
      exists te enc w',
        get_target_encoder data_schema w = (Ok te, w')
        /\ heap w !! te = None
        /\ heap w' !! te = Some (OEncoder enc)
        /\ target_field enc = target data_schema
        /\ classes_ enc = str <$> allowed_target_values data_schema
        /\ (forall l o, heap w !! l = Some o -> heap w' !! l = Some o)
        /\ disk w' = disk w).
Proof.
  destruct data_schema as [tf vs]. cbn [target allowed_target_values]. split.
  - intros Hlen. unfold get_target_encoder, lift, bind. cbn [target allowed_target_values].
    destruct vs as [| a [| b rest]]; cbn in *; [done | done | lia].
  - intros Hlen. destruct vs as [| a [| b rest]]; cbn in Hlen; [lia | lia |].
    eexists _, _, _. split; [by apply get_target_encoder_ok |].
    cbn [heap disk target_field classes_].
    split; [apply fresh_loc_unused |].
    split; [apply lookup_insert_eq |].
    split; [done |]. split; [done |]. split; [| done].
    intros l o Hl. rewrite lookup_insert_ne; [done |].
    intros <-. by rewrite fresh_loc_unused in Hl.
Qed.

Lemma get_target_encoder_spec_witness :
  let w : world string :=
    {| heap := {[ 0%nat := OFrame {[ "y" := [PStr "A"] ]} ]}; disk := ∅ |} in
  get_target_encoder (mkSchema "y" [PStr "A"]) w = (Raise IndexError, w)
  /\ exists te enc w',
       get_target_encoder (mkSchema "y" [PStr "A"; PStr "B"]) w = (Ok te, w')
       /\ heap w' !! te = Some (OEncoder enc)
       /\ classes_ enc = ["A"; "B"].
Proof.
  intros w. split.
  - apply (get_target_encoder_spec w (mkSchema "y" [PStr "A"])). cbn. lia.
  - destruct (proj2 (get_target_encoder_spec w (mkSchema "y" [PStr "A"; PStr "B"])))
      as (te & enc & w' & Hget & _ & Hte & _ & Hcls & _).
    + cbn. lia.
    + exists te, enc, w'. split; [exact Hget |]. split; [exact Hte | exact Hcls].
Defined.

(** X10: building an encoder from a schema, training it on a dataframe and
    transforming that dataframe gives what [transform] gives for the
    encoder the constructor builds: training adds nothing.  The dataframe
    and the disk are as before. *)
Theorem build_train_transform
    {blob : Type} (w : world blob) (data_schema : BinaryClassificationSchema)
    (data : loc) (df : DataFrame) (enc : CustomTargetEncoder) :
  __init__ (target data_schema) (allowed_target_values data_schema) = Ok enc ->
  heap w !! data = Some (OFrame df) ->
  exists w',
    bind (get_target_encoder data_schema) (fun target_encoder =>
    bind (train_target_encoder target_encoder data) (fun trained =>
    transform_targets trained data)) w
    = (transform enc df, w')
    /\ heap w' !! data = Some (OFrame df)
    /\ disk w' = disk w.
Proof.
  intros Hinit Hdata.
  set (te := fresh (dom (heap w))).
  set (w' := {| heap := <[te := OEncoder enc]> (heap w); disk := disk w |}).
  assert (heap w' !! te = Some (OEncoder enc)) as Hte by apply lookup_insert_eq.
  assert (heap w' !! data = Some (OFrame df)) as Hdata'.
  { cbn. rewrite lookup_insert_ne; [done |].
    intros Heq. subst te. rewrite <- Heq in Hdata.
    by rewrite fresh_loc_unused in Hdata. }
  exists w'. repeat split; [| done].
  rewrite (bind_ok _ _ w te w') by by apply get_target_encoder_ok.
  rewrite (bind_ok _ _ w' te w') by by apply (train_target_encoder_ok w' te data enc).
  rewrite transform_targets_method. by apply transform_method_spec.
Qed.

Lemma build_train_transform_witness :
  let w : world string :=
    {| heap := {[ 0%nat := OFrame {[ "y" := [PStr "B"; PStr "A"] ]} ]}; disk := ∅ |} in
  exists w',
    bind (get_target_encoder (mkSchema "y" [PStr "A"; PStr "B"])) (fun target_encoder =>
    bind (train_target_encoder target_encoder 0%nat) (fun trained =>
    transform_targets trained 0%nat)) w
    = (Ok (Some [Some 1%Z; Some 0%Z]), w').
Proof.
  intros w.
  destruct (build_train_transform w (mkSchema "y" [PStr "A"; PStr "B"]) 0%nat
              {[ "y" := [PStr "B"; PStr "A"] ]}
              {| target_field := "y"; classes_ := ["A"; "B"];
                 class_encoding := <["B" := 1%Z]> (<["A" := 0%Z]> ∅) |}
              eq_refl eq_refl) as (w' & Hrun & _).
  exists w'. exact Hrun.
Defined.

(** ** Files and loaded objects *)

Section PersistenceSteps.

Context {blob : Type}.
Variable pickle : obj -> blob.
Variable unpickle : blob -> option obj.
Variable open_wb : string -> outcome string.
Variable open_rb : string -> outcome string.
Implicit Types (w : world blob).


(** X13: every load builds an object of its own: loading the same file
    twice gives two different references, both new, with the same
    contents, and leaves the disk as it was. *)
Theorem load_twice_distinct
    (w : world blob) (path file : string) (b : blob) (o : obj) :
  open_rb path = Ok file ->
  disk w !! file = Some b ->
  unpickle b = Some o ->
  exists l1 l2 w',
    bind (load_target_encoder unpickle open_rb path) (fun l1 =>
    bind (load_target_encoder unpickle open_rb path) (fun l2 =>
    ret (l1, l2))) w
    = (Ok (l1, l2), w')
    /\ l1 ≠ l2
    /\ heap w !! l1 = None
    /\ heap w !! l2 = None
    /\ heap w' !! l1 = Some o
    /\ heap w' !! l2 = Some o
    /\ disk w' = disk w.
Proof.
  intros Hfile Hb Ho.
  set (l1 := fresh (dom (heap w))).
  set (w1 := {| heap := <[l1 := o]> (heap w); disk := disk w |}).
  set (l2 := fresh (dom (heap w1))).
  set (w2 := {| heap := <[l2 := o]> (heap w1); disk := disk w1 |}).
  assert (heap w1 !! l2 = None) as Hl2 by apply fresh_loc_unused.
  assert (l1 ≠ l2) as Hne.
  { intros Heq. rewrite <- Heq in Hl2. cbn in Hl2.
    by rewrite lookup_insert_eq in Hl2. }
  exists l1, l2, w2. split.
  - rewrite (bind_ok _ _ w l1 w1)
      by by apply (load_target_encoder_ok _ _ w path file b o).
    by rewrite (bind_ok _ _ w1 l2 w2)
      by by apply (load_target_encoder_ok _ _ w1 path file b o).
  - split; [done |]. split; [apply fresh_loc_unused |].
    split; [| split; [| split; [apply lookup_insert_eq | done]]].
    + cbn in Hl2. by rewrite lookup_insert_ne in Hl2.
    + cbn. by rewrite lookup_insert_ne, lookup_insert_eq.
Qed.

End PersistenceSteps.


Lemma load_twice_distinct_witness :
  let enc := {| target_field := "y"; classes_ := ["A"; "B"];
                class_encoding := <["B" := 1%Z]> (<["A" := 0%Z]> ∅) |} in
  let w : world (list opcode) :=
    {| heap := ∅; disk := {[ "encoder.joblib" := joblib_pickle (OEncoder enc) ]} |} in
  let open_rb := fun _ : string => Ok "encoder.joblib" in
  exists l1 l2 w',
    bind (load_target_encoder joblib_unpickle open_rb "./encoder.joblib") (fun l1 =>
    bind (load_target_encoder joblib_unpickle open_rb "./encoder.joblib") (fun l2 =>
    ret (l1, l2))) w
    = (Ok (l1, l2), w')
    /\ l1 ≠ l2.
Proof.
  intros enc w open_rb.
  destruct (load_twice_distinct joblib_unpickle open_rb w "./encoder.joblib"
              "encoder.joblib" (joblib_pickle (OEncoder enc)) (OEncoder enc)
              eq_refl)
    as (l1 & l2 & w' & Hrun & Hne & _).
  - reflexivity.
  - apply joblib_roundtrip.
  - exists l1, l2, w'. split; [exact Hrun | exact Hne].
Defined.
